(** * discord.js [util/Channels.js]: channel factory and schema transcoder

    A shallow embedding of [packages/discord.js/src/util/Channels.js]:
    - the four transcoder functions [transformAPIGuildForumTag],
      [transformGuildForumTag], [transformAPIGuildDefaultReaction] and
      [transformGuildDefaultReaction], as pure functions on records of
      JavaScript values;
    - [createChannel], as a computation over the store of cache objects
      ([Collection]s) that it may write to.

    JavaScript's dynamic values, truthiness, nullish coalescing and strict
    equality are written out, since the source relies on them. *)

From Stdlib Require Import ZArith String Bool.
From stdpp Require Import base option gmap strings.

Local Open Scope string_scope.

(** ** JavaScript values *)

(** The primitive values that the fields read by this file can hold.
    Numbers are the integer-valued ones: the only numbers the source
    compares are the members of the [ChannelType] enumeration. *)
Inductive JSValue : Type :=
  | JSUndefined
  | JSNull
  | JSBool (b : bool)
  | JSNumber (z : Z)
  | JSString (s : string).

#[global] Instance JSValue_eq_dec : EqDecision JSValue.
Proof. solve_decision. Defined.

(** [ToBoolean]: [undefined], [null], [false], [0] and the empty string are
    falsy, every other value is truthy. *)
Definition truthy (v : JSValue) : bool :=
  match v with
  | JSUndefined | JSNull => false
  | JSBool b => b
  | JSNumber z => negb (z =? 0)%Z
  | JSString s => negb (String.eqb s "")
  end.

(** [v] is [null] or [undefined]. *)
Definition nullish (v : JSValue) : bool :=
  match v with
  | JSUndefined | JSNull => true
  | _ => false
  end.

(** [a ?? b] *)
Definition coalesce (a b : JSValue) : JSValue :=
  if nullish a then b else a.

Infix "??" := coalesce (at level 45, left associativity).

(** [a === b] on primitive values. *)
Definition strict_eq (a b : JSValue) : bool := bool_decide (a = b).

Infix "===" := strict_eq (at level 70, no associativity).

(** ** Schema transcoder *)

(** Application-shaped records ([GuildForumTag], [DefaultReactionEmoji]). *)
Module App.

(** [{ id, name }] *)
Record DefaultReactionEmoji : Type := mkDefaultReactionEmoji {
  id : JSValue;
  name : JSValue;
}.

(** The [emoji] property of a tag: absent, [null], or an [{ id, name }]
    object. *)
Inductive EmojiField : Type :=
  | EmojiUndefined
  | EmojiNull
  | EmojiObject (e : DefaultReactionEmoji).

(** [{ id, name, moderated, emoji }] *)
Record GuildForumTag : Type := mkGuildForumTag {
  tag_id : JSValue;
  tag_name : JSValue;
  moderated : JSValue;
  emoji : EmojiField;
}.

(** [emoji?.id] and [emoji?.name]: optional chaining yields [undefined]
    on a nullish [emoji]. *)
Definition emoji_opt_id (e : EmojiField) : JSValue :=
  match e with
  | EmojiObject o => id o
  | EmojiUndefined | EmojiNull => JSUndefined
  end.

Definition emoji_opt_name (e : EmojiField) : JSValue :=
  match e with
  | EmojiObject o => name o
  | EmojiUndefined | EmojiNull => JSUndefined
  end.

End App.

(** Wire-shaped records ([APIGuildForumTag],
    [APIGuildForumDefaultReactionEmoji]).  A key missing from the object
    reads as [JSUndefined]. *)
Module API.

(** [{ emoji_id, emoji_name }] *)
Record GuildForumDefaultReactionEmoji : Type :=
  mkGuildForumDefaultReactionEmoji {
    reaction_emoji_id : JSValue;
    reaction_emoji_name : JSValue;
  }.

(** [{ id, name, moderated, emoji_id, emoji_name }] *)
Record GuildForumTag : Type := mkGuildForumTag {
  id : JSValue;
  name : JSValue;
  moderated : JSValue;
  emoji_id : JSValue;
  emoji_name : JSValue;
}.

End API.

(** [transformAPIGuildForumTag(tag)] *)
Definition transformAPIGuildForumTag (tag : API.GuildForumTag)
  : App.GuildForumTag :=
  {| App.tag_id := API.id tag;
     App.tag_name := API.name tag;
     App.moderated := API.moderated tag;
     App.emoji :=
       if truthy (API.emoji_id tag ?? API.emoji_name tag)
       then App.EmojiObject
              {| App.id := API.emoji_id tag;
                 App.name := API.emoji_name tag |}
       else App.EmojiNull |}.

(** [transformGuildForumTag(tag)] *)
Definition transformGuildForumTag (tag : App.GuildForumTag)
  : API.GuildForumTag :=
  {| API.id := App.tag_id tag;
     API.name := App.tag_name tag;
     API.moderated := App.moderated tag;
     API.emoji_id := App.emoji_opt_id (App.emoji tag) ?? JSNull;
     API.emoji_name := App.emoji_opt_name (App.emoji tag) ?? JSNull |}.

(** [transformAPIGuildDefaultReaction(defaultReaction)] *)
Definition transformAPIGuildDefaultReaction
    (defaultReaction : API.GuildForumDefaultReactionEmoji)
  : App.DefaultReactionEmoji :=
  {| App.id := API.reaction_emoji_id defaultReaction;
     App.name := API.reaction_emoji_name defaultReaction |}.

(** [transformGuildDefaultReaction(defaultReaction)] *)
Definition transformGuildDefaultReaction
    (defaultReaction : App.DefaultReactionEmoji)
  : API.GuildForumDefaultReactionEmoji :=
  {| API.reaction_emoji_id := App.id defaultReaction;
     API.reaction_emoji_name := App.name defaultReaction |}.

(** ** Channel factory: data *)

(** Identifiers are strings on the wire and in the caches. *)
Abbreviation Snowflake := string (only parsing).

(** The members of [ChannelType] (discord-api-types/v10) that
    [createChannel] names, with the numbers the enumeration gives them. *)
Module ChannelType.
Definition GuildText : JSValue := JSNumber 0.
Definition DM : JSValue := JSNumber 1.
Definition GuildVoice : JSValue := JSNumber 2.
Definition GroupDM : JSValue := JSNumber 3.
Definition GuildCategory : JSValue := JSNumber 4.
Definition GuildAnnouncement : JSValue := JSNumber 5.
Definition AnnouncementThread : JSValue := JSNumber 10.
Definition PublicThread : JSValue := JSNumber 11.
Definition PrivateThread : JSValue := JSNumber 12.
Definition GuildStageVoice : JSValue := JSNumber 13.
Definition GuildDirectory : JSValue := JSNumber 14.
Definition GuildForum : JSValue := JSNumber 15.
Definition GuildMedia : JSValue := JSNumber 16.
End ChannelType.

(** The channel payload [data], with the properties [createChannel] reads.
    [recipients] is absent ([None]) or an array, which is truthy even when
    empty. *)
Module APIChannel.
Record t : Type := mk {
  id : Snowflake;
  type : JSValue;
  guild_id : JSValue;
  recipients : option (list Snowflake);
}.
End APIChannel.

(** The classes behind the lazy [require]s at the top of the file. *)
Inductive ChannelClass : Type :=
  | CategoryChannel
  | DMChannel
  | AnnouncementChannel
  | StageChannel
  | TextChannel
  | ThreadChannel
  | VoiceChannel
  | DirectoryChannel
  | PartialGroupDMChannel
  | ForumChannel
  | MediaChannel.

#[global] Instance ChannelClass_eq_dec : EqDecision ChannelClass.
Proof. solve_decision. Defined.

(** A cache is a [Collection] object; it is known by its reference, and its
    contents live in the store. *)
Abbreviation CacheRef := positive (only parsing).

(** A guild, with [guild.channels?.cache]: [None] when the guild object has
    no [channels] manager. *)
Record Guild : Type := mkGuild {
  guild_snowflake : Snowflake;
  guild_channels : option CacheRef;
}.

(** The client, with the contents of [client.guilds.cache]. *)
Record Client : Type := mkClient {
  guilds_cache : gmap string Guild;
}.

(** A channel object is recorded as the constructor call that made it:
    [new C(guild, data, client)], or [new C(client, data)] with no guild.
    The constructors belong to the channel classes, outside this file; they
    are taken to return and to leave the channel caches as they are. *)
Record Instance : Type := mkInstance {
  inst_class : ChannelClass;
  inst_guild : option Guild;
  inst_data : APIChannel.t;
  inst_client : Client;
}.

(** The channel returned by a thread's [parent] getter, with
    [parent.threads.cache]. *)
Record ThreadParent : Type := mkThreadParent {
  parent_snowflake : Snowflake;
  parent_threads : CacheRef;
}.

(** The store: the contents of every cache object. A cache never written to
    is empty. *)
Abbreviation Store := (gmap positive (gmap string Instance)) (only parsing).

Definition cache_contents (σ : Store) (c : CacheRef) : gmap string Instance :=
  default ∅ (σ !! c).

(** The options bag [extras]: an object, read by property name. *)
Abbreviation Options := (gmap string JSValue) (only parsing).

(** [o.k]: a missing property reads as [undefined]. *)
Definition get_property (o : Options) (k : string) : JSValue :=
  default JSUndefined (o !! k).

(** [cache.get(key)] on [client.guilds.cache], whose keys are strings: any
    other key finds nothing. *)
Definition guilds_get (client : Client) (key : JSValue) : option Guild :=
  match key with
  | JSString s => guilds_cache client !! s
  | _ => None
  end.

(** Truthiness of a reference that is an object or [undefined]. *)
Definition defined {A : Type} (o : option A) : bool :=
  match o with
  | Some _ => true
  | None => false
  end.

(** ** Channel factory: computations *)

Inductive JSError : Type :=
  | TypeError.

(** How a call ends: it returns a value or throws. *)
Inductive Completion (A : Type) : Type :=
  | Normal (a : A)
  | Throw (e : JSError).

Arguments Normal {A} a.
Arguments Throw {A} e.

(** A computation reads and writes the store; writes made before a throw
    stay. *)
Definition Exec (A : Type) : Type := Store -> Completion A * Store.

(** Return a value, leaving the store as it is. *)
Definition ret {A : Type} (a : A) : Exec A := fun σ => (Normal a, σ).

(** Throw: the rest of the computation is skipped. *)
Definition throw {A : Type} (e : JSError) : Exec A := fun σ => (Throw e, σ).

(** Sequencing: a throw in [m] ends the whole computation. *)
Definition bind {A B : Type} (m : Exec A) (k : A -> Exec B) : Exec B :=
  fun σ =>
    match m σ with
    | (Normal a, σ') => k a σ'
    | (Throw e, σ') => (Throw e, σ')
    end.

Notation "x <- m ;; k" := (bind m (fun x => k))
  (at level 100, m at next level, right associativity).
Notation "m ;;; k" := (bind m (fun _ => k))
  (at level 100, right associativity).

Definition get_store : Exec Store := fun σ => (Normal σ, σ).

(** [cache.set(key, value)] *)
Definition cache_set (c : CacheRef) (key : Snowflake) (value : Instance)
  : Exec unit :=
  fun σ => (Normal tt, <[c := <[key := value]> (cache_contents σ c)]> σ).

(** Reading a property of [guild]: a [TypeError] when [guild] is
    [undefined]. *)
Definition deref_guild (guild : option Guild) : Exec Guild :=
  match guild with
  | Some g => ret g
  | None => throw TypeError
  end.

Section Factory.

(** What the channel classes (not part of this file) give to
    [createChannel]: the [id] property of a constructed channel and the
    [parent] getter of a thread, which may consult the caches. *)
Variable channel_id : Instance -> Snowflake.
Variable channel_parent : Instance -> Store -> option ThreadParent.

(** [channel.parent?.threads.cache.set(channel.id, channel)] *)
Definition register_in_parent (channel : Instance) : Exec unit :=
  σ <- get_store ;;
  match channel_parent channel σ with
  | Some parent => cache_set (parent_threads parent) (channel_id channel) channel
  | None => ret tt
  end.

(** [guild.channels?.cache.set(channel.id, channel)] *)
Definition register_in_guild (guild : option Guild) (channel : Instance)
  : Exec unit :=
  g <- deref_guild guild ;;
  match guild_channels g with
  | Some cache => cache_set cache (channel_id channel) channel
  | None => ret tt
  end.

(** The [switch (data.type)] of [createChannel]: the cases are tried in
    order with [===]; no case matching leaves [channel] undefined. *)
Definition switch_type (client : Client) (data : APIChannel.t)
    (guild : option Guild) (allowUnknownGuild : JSValue)
  : Exec (option Instance) :=
  let type := APIChannel.type data in
  if type === ChannelType.GuildText then
    ret (Some (mkInstance TextChannel guild data client))
  else if type === ChannelType.GuildVoice then
    ret (Some (mkInstance VoiceChannel guild data client))
  else if type === ChannelType.GuildCategory then
    ret (Some (mkInstance CategoryChannel guild data client))
  else if type === ChannelType.GuildAnnouncement then
    ret (Some (mkInstance AnnouncementChannel guild data client))
  else if type === ChannelType.GuildStageVoice then
    ret (Some (mkInstance StageChannel guild data client))
  else if (type === ChannelType.AnnouncementThread)
          || (type === ChannelType.PublicThread)
          || (type === ChannelType.PrivateThread) then
    let channel := mkInstance ThreadChannel guild data client in
    (if negb (truthy allowUnknownGuild)
     then register_in_parent channel
     else ret tt) ;;;
    ret (Some channel)
  else if type === ChannelType.GuildDirectory then
    ret (Some (mkInstance DirectoryChannel guild data client))
  else if type === ChannelType.GuildForum then
    ret (Some (mkInstance ForumChannel guild data client))
  else if type === ChannelType.GuildMedia then
    ret (Some (mkInstance MediaChannel guild data client))
  else
    ret None.

(** [createChannel(client, data, guild, { allowUnknownGuild } = {})].
    [guild] and [extras] are [None] when the argument is omitted; an omitted
    [extras] takes the default [{}]. The one property destructured from the
    bag is [allowUnknownGuild]. *)
Definition createChannel (client : Client) (data : APIChannel.t)
    (guild : option Guild) (extras : option Options)
  : Exec (option Instance) :=
  let allowUnknownGuild :=
    get_property (default ∅ extras) "allowUnknownGuild" in
  if negb (truthy (APIChannel.guild_id data)) && negb (defined guild) then
    if (defined (APIChannel.recipients data)
        && negb (APIChannel.type data === ChannelType.GroupDM))
       || (APIChannel.type data === ChannelType.DM) then
      ret (Some (mkInstance DMChannel None data client))
    else if APIChannel.type data === ChannelType.GroupDM then
      ret (Some (mkInstance PartialGroupDMChannel None data client))
    else
      ret None
  else
    let guild :=
      match guild with
      | Some g => Some g
      | None => guilds_get client (APIChannel.guild_id data)
      end in
    if defined guild || truthy allowUnknownGuild then
      channel <- switch_type client data guild allowUnknownGuild ;;
      match channel with
      | Some ch =>
          if negb (truthy allowUnknownGuild)
          then register_in_guild guild ch
          else ret tt
      | None => ret tt
      end ;;;
      ret channel
    else
      ret None.

End Factory.

(** The store after [cache.set(channel.id, channel)] on cache [c]. *)
Definition store_set (channel_id : Instance -> Snowflake) (c : CacheRef)
    (channel : Instance) (σ : Store) : Store :=
  <[c := <[channel_id channel := channel]> (cache_contents σ c)]> σ.

(** ** Vocabulary of the specification *)

(** A field is present (populated) when it is neither [null] nor
    [undefined]. *)
Definition present (v : JSValue) : Prop := nullish v = false.

(** The eleven guild-scoped discriminators, and the variant each one is
    mapped to. The three thread discriminators share [ThreadChannel]. *)
Module GuildScoped.

Inductive t : Type :=
  | GuildText
  | GuildVoice
  | GuildCategory
  | GuildAnnouncement
  | GuildStageVoice
  | AnnouncementThread
  | PublicThread
  | PrivateThread
  | GuildDirectory
  | GuildForum
  | GuildMedia.

Definition discriminator (k : t) : JSValue :=
  match k with
  | GuildText => ChannelType.GuildText
  | GuildVoice => ChannelType.GuildVoice
  | GuildCategory => ChannelType.GuildCategory
  | GuildAnnouncement => ChannelType.GuildAnnouncement
  | GuildStageVoice => ChannelType.GuildStageVoice
  | AnnouncementThread => ChannelType.AnnouncementThread
  | PublicThread => ChannelType.PublicThread
  | PrivateThread => ChannelType.PrivateThread
  | GuildDirectory => ChannelType.GuildDirectory
  | GuildForum => ChannelType.GuildForum
  | GuildMedia => ChannelType.GuildMedia
  end.

Definition variant (k : t) : ChannelClass :=
  match k with
  | GuildText => TextChannel
  | GuildVoice => VoiceChannel
  | GuildCategory => CategoryChannel
  | GuildAnnouncement => AnnouncementChannel
  | GuildStageVoice => StageChannel
  | AnnouncementThread | PublicThread | PrivateThread => ThreadChannel
  | GuildDirectory => DirectoryChannel
  | GuildForum => ForumChannel
  | GuildMedia => MediaChannel
  end.

Definition is_thread (k : t) : bool :=
  match k with
  | AnnouncementThread | PublicThread | PrivateThread => true
  | _ => false
  end.

End GuildScoped.

(** The payload carries a guild identifier: [data.guild_id] passes the
    test of the first [if] of [createChannel]. *)
Definition carries_guild_id (data : APIChannel.t) : Prop :=
  truthy (APIChannel.guild_id data) = true.

(** The guild is resolvable to [g]: supplied as the [guild] argument, or
    found in the client's guild cache under the guild identifier that the
    payload carries. *)
Definition resolves_to (client : Client) (data : APIChannel.t)
    (guild : option Guild) (g : Guild) : Prop :=
  guild = Some g
  \/ (guild = None /\ carries_guild_id data
      /\ guilds_get client (APIChannel.guild_id data) = Some g).

(** The guild cannot be resolved: none is supplied and the client's guild
    cache has none under the payload's guild identifier. *)
Definition unresolvable (client : Client) (data : APIChannel.t)
    (guild : option Guild) : Prop :=
  guild = None /\ guilds_get client (APIChannel.guild_id data) = None.

(** The discriminator is none of the eleven guild-scoped values. *)
Definition unrecognized (data : APIChannel.t) : Prop :=
  forall k : GuildScoped.t, APIChannel.type data <> GuildScoped.discriminator k.

(** Two options bags agree on a property. *)
Definition agree_on (k : string) (o1 o2 : Options) : Prop :=
  get_property o1 k = get_property o2 k.

(** ** Sample inputs *)

Module Sample.

(** [{ id: '7', name: 'help', moderated: false, emoji_id: '',
       emoji_name: 'x' }] *)
Definition tag_empty_emoji_id : API.GuildForumTag :=
  {| API.id := JSString "7";
     API.name := JSString "help";
     API.moderated := JSBool false;
     API.emoji_id := JSString "";
     API.emoji_name := JSString "x" |}.

(** [{ ..., emoji_id: '42', emoji_name: 'x' }] *)
Definition tag_both : API.GuildForumTag :=
  {| API.id := JSString "7";
     API.name := JSString "help";
     API.moderated := JSBool false;
     API.emoji_id := JSString "42";
     API.emoji_name := JSString "x" |}.

(** [{ id: '7', name: 'help', moderated: false }], the emoji keys
    omitted. *)
Definition tag_omitted : API.GuildForumTag :=
  {| API.id := JSString "7";
     API.name := JSString "help";
     API.moderated := JSBool false;
     API.emoji_id := JSUndefined;
     API.emoji_name := JSUndefined |}.

(** A guild with a channel cache, and a client that knows it. *)
Definition guild : Guild :=
  {| guild_snowflake := "1"; guild_channels := Some 7%positive |}.

Definition client : Client :=
  {| guilds_cache := <["1" := guild]> ∅ |}.

(** A client whose guild cache is empty. *)
Definition client_no_guilds : Client := {| guilds_cache := ∅ |}.

(** Channel classes that take [id] from the payload, and whose threads
    have either no parent or a parent with thread cache [9]. *)
Definition channel_id (channel : Instance) : string :=
  APIChannel.id (inst_data channel).

Definition no_parent (channel : Instance) (σ : Store)
  : option ThreadParent := None.

Definition parent : ThreadParent :=
  {| parent_snowflake := "5"; parent_threads := 9%positive |}.

Definition with_parent (channel : Instance) (σ : Store)
  : option ThreadParent := Some parent.

(** [{ id: '10', type: ChannelType.GuildText, guild_id: '1' }] *)
Definition text_payload : APIChannel.t :=
  APIChannel.mk "10" ChannelType.GuildText (JSString "1") None.

(** [{ id: '11', type: ChannelType.PublicThread, guild_id: '1' }] *)
Definition thread_payload : APIChannel.t :=
  APIChannel.mk "11" ChannelType.PublicThread (JSString "1") None.

(** [{ id: '12', type: 99, guild_id: '1' }] *)
Definition future_payload : APIChannel.t :=
  APIChannel.mk "12" (JSNumber 99) (JSString "1") None.

(** [{ id: '13', type: ChannelType.GuildVoice, recipients: [] }]: no
    guild identifier, [recipients] set, an unrelated discriminator. *)
Definition odd_dm_payload : APIChannel.t :=
  APIChannel.mk "13" ChannelType.GuildVoice JSUndefined (Some []).

(** [{ id: '14', type: ChannelType.GroupDM, recipients: ['2', '3'] }] *)
Definition group_dm_payload : APIChannel.t :=
  APIChannel.mk "14" ChannelType.GroupDM JSUndefined (Some ["2"; "3"]).

(** [{ allowFromUnknownGuild: true }] *)
Definition documented_option : Options :=
  <["allowFromUnknownGuild" := JSBool true]> ∅.

(** [{ allowUnknownGuild: true }] *)
Definition destructured_option : Options :=
  <["allowUnknownGuild" := JSBool true]> ∅.

(** [{ allowFromUnknownGuild: false, allowUnknownGuild: true }] *)
Definition both_options : Options :=
  <["allowFromUnknownGuild" := JSBool false]>
    (<["allowUnknownGuild" := JSBool true]> ∅).

End Sample.

(** ** Outcomes of [createChannel], spelled out *)

(** [guild ??= client.guilds.cache.get(data.guild_id)]: the guild that the
    second branch of [createChannel] works with. *)
Definition resolved_guild (client : Client) (data : APIChannel.t)
    (guild : option Guild) : option Guild :=
  match guild with
  | Some g => Some g
  | None => guilds_get client (APIChannel.guild_id data)
  end.

(** The test of the first [if]: no guild identifier and no guild. *)
Definition user_scoped (data : APIChannel.t) (guild : option Guild) : bool :=
  negb (truthy (APIChannel.guild_id data)) && negb (defined guild).

(** Which [case] label of the [switch], if any, a discriminator is [===]
    to; the labels are tried in the order of the source. *)
Definition recognize (type : JSValue) : option GuildScoped.t :=
  if type === ChannelType.GuildText then Some GuildScoped.GuildText
  else if type === ChannelType.GuildVoice then Some GuildScoped.GuildVoice
  else if type === ChannelType.GuildCategory then
    Some GuildScoped.GuildCategory
  else if type === ChannelType.GuildAnnouncement then
    Some GuildScoped.GuildAnnouncement
  else if type === ChannelType.GuildStageVoice then
    Some GuildScoped.GuildStageVoice
  else if type === ChannelType.AnnouncementThread then
    Some GuildScoped.AnnouncementThread
  else if type === ChannelType.PublicThread then
    Some GuildScoped.PublicThread
  else if type === ChannelType.PrivateThread then
    Some GuildScoped.PrivateThread
  else if type === ChannelType.GuildDirectory then
    Some GuildScoped.GuildDirectory
  else if type === ChannelType.GuildForum then Some GuildScoped.GuildForum
  else if type === ChannelType.GuildMedia then Some GuildScoped.GuildMedia
  else None.

(** The store after [channel.parent?.threads.cache.set(channel.id,
    channel)]. *)
Definition store_after_parent (channel_id : Instance -> Snowflake)
    (channel_parent : Instance -> Store -> option ThreadParent)
    (channel : Instance) (σ : Store) : Store :=
  match channel_parent channel σ with
  | Some parent => store_set channel_id (parent_threads parent) channel σ
  | None => σ
  end.

(** The store after [guild.channels?.cache.set(channel.id, channel)] on a
    resolved guild. *)
Definition store_after_guild (channel_id : Instance -> Snowflake)
    (g : Guild) (channel : Instance) (σ : Store) : Store :=
  match guild_channels g with
  | Some cache => store_set channel_id cache channel σ
  | None => σ
  end.

(** Wire to application shape and back. *)
Definition wire_round_trip (t : API.GuildForumTag) : API.GuildForumTag :=
  transformGuildForumTag (transformAPIGuildForumTag t).

(** Application to wire shape and back. *)
Definition app_round_trip (x : App.GuildForumTag) : App.GuildForumTag :=
  transformAPIGuildForumTag (transformGuildForumTag x).

(** More sample inputs. *)
Module Sample2.

(** A guild object without a [channels] manager. *)
Definition bare_guild : Guild :=
  {| guild_snowflake := "2"; guild_channels := None |}.

(** A channel made earlier for the identifier ['10']. *)
Definition old_channel : Instance :=
  mkInstance VoiceChannel (Some Sample.guild)
    (APIChannel.mk "10" ChannelType.GuildVoice (JSString "1") None)
    Sample.client.

(** A store in which the guild's channel cache already holds
    [old_channel] under ['10'] and another channel under ['99']. *)
Definition other_channel : Instance :=
  mkInstance TextChannel (Some Sample.guild)
    (APIChannel.mk "99" ChannelType.GuildText (JSString "1") None)
    Sample.client.

Definition store : Store :=
  <[7%positive := <["10" := old_channel]> (<["99" := other_channel]> ∅)]> ∅.

(** [{ id: '15', type: ChannelType.GuildText }]: a guild-scoped
    discriminator on a payload with no guild identifier. *)
Definition text_without_guild_id : APIChannel.t :=
  APIChannel.mk "15" ChannelType.GuildText JSUndefined None.

(** A tag with a unicode emoji: [{ ..., emoji_id: null, emoji_name: 'x' }] *)
Definition tag_unicode : API.GuildForumTag :=
  {| API.id := JSString "7";
     API.name := JSString "help";
     API.moderated := JSBool false;
     API.emoji_id := JSNull;
     API.emoji_name := JSString "x" |}.

(** An application-shaped tag with a custom emoji. *)
Definition app_tag_custom : App.GuildForumTag :=
  {| App.tag_id := JSString "7";
     App.tag_name := JSString "help";
     App.moderated := JSBool true;
     App.emoji :=
       App.EmojiObject {| App.id := JSString "42"; App.name := JSNull |} |}.

End Sample2.

(** ** The transcoder: properties *)

Lemma coalesce_null_present (v : JSValue) : present v -> v ?? JSNull = v.
Proof. unfold present, coalesce. intros ->. reflexivity. Qed.

Lemma coalesce_null_nullish (v : JSValue) :
  nullish v = true -> v ?? JSNull = JSNull.
Proof. unfold coalesce. intros ->. reflexivity. Qed.

Lemma truthy_present (v : JSValue) : truthy v = true -> present v.
Proof. unfold present. destruct v; simpl; congruence. Qed.

(** The emoji of the application-shaped tag is never [undefined]: it is
    [null] or the object holding both wire fields. *)
Lemma transformAPIGuildForumTag_emoji_cases (tag : API.GuildForumTag) :
  App.emoji (transformAPIGuildForumTag tag) = App.EmojiNull
  \/ App.emoji (transformAPIGuildForumTag tag)
     = App.EmojiObject
         {| App.id := API.emoji_id tag; App.name := API.emoji_name tag |}.
Proof.
  unfold transformAPIGuildForumTag; simpl.
  destruct (truthy _); [right | left]; reflexivity.
Qed.

(** C3, counterexample: a wire tag whose [emoji_id] is the empty string and
    whose [emoji_name] is the string ['x'] has a field present (and even
    truthy), yet the transformed tag's [emoji] is [null]. *)
Lemma transformAPIGuildForumTag_empty_emoji_id_collapses :
  (present (API.emoji_id Sample.tag_empty_emoji_id)
   \/ present (API.emoji_name Sample.tag_empty_emoji_id))
  /\ truthy (API.emoji_name Sample.tag_empty_emoji_id) = true
  /\ App.emoji (transformAPIGuildForumTag Sample.tag_empty_emoji_id)
     = App.EmojiNull.
Proof. repeat split. right. reflexivity. Qed.

(** C3, amended: for every wire-shaped forum tag, the result of
    [transformAPIGuildForumTag] has a non-null [emoji] if and only if
    [emoji_id] is present and truthy, or [emoji_id] is absent or null and
    [emoji_name] is present and truthy; [id], [name] and [moderated] are
    copied unchanged, and a non-null [emoji] holds [emoji_id] and
    [emoji_name] unchanged. *)
Theorem transformAPIGuildForumTag_emoji_spec (tag : API.GuildForumTag) :
  (App.emoji (transformAPIGuildForumTag tag) <> App.EmojiNull
   <-> (present (API.emoji_id tag) /\ truthy (API.emoji_id tag) = true)
       \/ (~ present (API.emoji_id tag)
           /\ present (API.emoji_name tag)
           /\ truthy (API.emoji_name tag) = true))
  /\ App.tag_id (transformAPIGuildForumTag tag) = API.id tag
  /\ App.tag_name (transformAPIGuildForumTag tag) = API.name tag
  /\ App.moderated (transformAPIGuildForumTag tag) = API.moderated tag
  /\ (App.emoji (transformAPIGuildForumTag tag) <> App.EmojiNull ->
      App.emoji (transformAPIGuildForumTag tag)
      = App.EmojiObject
          {| App.id := API.emoji_id tag; App.name := API.emoji_name tag |}).
Proof.
  split; [| repeat split].
  - unfold transformAPIGuildForumTag, present, coalesce; simpl.
    destruct (nullish (API.emoji_id tag)) eqn:Hid.
    + destruct (truthy (API.emoji_name tag)) eqn:Hname; split.
      * intros _. right. repeat split; try congruence.
        apply truthy_present, Hname.
      * discriminate.
      * congruence.
      * intros [[? _] | (_ & _ & ?)]; congruence.
    + destruct (truthy (API.emoji_id tag)) eqn:Ht; split.
      * intros _. left. split; reflexivity.
      * discriminate.
      * congruence.
      * intros [[_ ?] | (? & _)]; congruence.
  - intros Hne.
    destruct (transformAPIGuildForumTag_emoji_cases tag); congruence.
Qed.

(** When every populated emoji field is truthy (a non-empty string), the
    [emoji] is non-null exactly when one of the two fields is populated. *)
Lemma transformAPIGuildForumTag_emoji_iff_present (tag : API.GuildForumTag) :
  (present (API.emoji_id tag) -> truthy (API.emoji_id tag) = true) ->
  (present (API.emoji_name tag) -> truthy (API.emoji_name tag) = true) ->
  App.emoji (transformAPIGuildForumTag tag) <> App.EmojiNull
  <-> present (API.emoji_id tag) \/ present (API.emoji_name tag).
Proof.
  intros Hid Hname.
  unfold transformAPIGuildForumTag, coalesce; simpl.
  unfold present in *.
  destruct (nullish (API.emoji_id tag)).
  - destruct (nullish (API.emoji_name tag)) eqn:Hn.
    + destruct (API.emoji_name tag); try discriminate; simpl;
        (split; [congruence | intros [? | ?]; discriminate]).
    + rewrite Hname by reflexivity.
      split; [intros _; right; reflexivity | discriminate].
  - rewrite Hid by reflexivity.
    split; [intros _; left; reflexivity | discriminate].
Qed.

(** C7, counterexample: both [emoji_id] (the empty string) and
    [emoji_name] are populated, and the round trip returns a different
    tag, with both fields [null]. *)
Lemma forum_tag_round_trip_empty_emoji_id :
  present (API.emoji_id Sample.tag_empty_emoji_id)
  /\ present (API.emoji_name Sample.tag_empty_emoji_id)
  /\ transformGuildForumTag (transformAPIGuildForumTag Sample.tag_empty_emoji_id)
     <> Sample.tag_empty_emoji_id
  /\ API.emoji_id
       (transformGuildForumTag
          (transformAPIGuildForumTag Sample.tag_empty_emoji_id)) = JSNull.
Proof. repeat split. discriminate. Qed.

(** C7, amended: [transformGuildForumTag (transformAPIGuildForumTag t)]
    equals [t] for every wire-shaped tag [t] whose [emoji_id] is truthy (a
    non-empty string) and whose [emoji_name] is populated; and for [t] with
    both fields null or omitted, the round-tripped tag has [emoji_id] and
    [emoji_name] equal to [null] and the other fields of [t]. *)
Theorem forum_tag_round_trip (t : API.GuildForumTag) :
  (truthy (API.emoji_id t) = true -> present (API.emoji_name t) ->
   transformGuildForumTag (transformAPIGuildForumTag t) = t)
  /\ (nullish (API.emoji_id t) = true -> nullish (API.emoji_name t) = true ->
      transformGuildForumTag (transformAPIGuildForumTag t)
      = {| API.id := API.id t;
           API.name := API.name t;
           API.moderated := API.moderated t;
           API.emoji_id := JSNull;
           API.emoji_name := JSNull |}).
Proof.
  destruct t as [i n m eid ename]; simpl. split.
  - intros Hid Hname.
    pose proof (truthy_present _ Hid) as Hp.
    unfold transformAPIGuildForumTag, transformGuildForumTag; simpl.
    replace (eid ?? ename) with eid by (unfold coalesce; now rewrite Hp).
    rewrite Hid; simpl.
    rewrite !coalesce_null_present by assumption. reflexivity.
  - intros Hid Hname.
    unfold transformAPIGuildForumTag, transformGuildForumTag; simpl.
    replace (eid ?? ename) with ename by (unfold coalesce; now rewrite Hid).
    destruct ename; try discriminate; reflexivity.
Qed.

(** The round trip at a tag with both emoji fields populated, and at a tag
    with both omitted. *)
Lemma forum_tag_round_trip_witness :
  transformGuildForumTag (transformAPIGuildForumTag Sample.tag_both)
  = Sample.tag_both
  /\ API.emoji_id
       (transformGuildForumTag (transformAPIGuildForumTag Sample.tag_omitted))
     = JSNull.
Proof.
  split.
  - apply (proj1 (forum_tag_round_trip Sample.tag_both)); reflexivity.
  - rewrite (proj2 (forum_tag_round_trip Sample.tag_omitted));
      reflexivity.
Defined.

(** C9: the default-reaction transforms are inverse to each other in both
    directions, for every record, [null] fields included. *)
Theorem default_reaction_round_trip :
  (forall r : API.GuildForumDefaultReactionEmoji,
     transformGuildDefaultReaction (transformAPIGuildDefaultReaction r) = r)
  /\ (forall x : App.DefaultReactionEmoji,
        transformAPIGuildDefaultReaction (transformGuildDefaultReaction x) = x).
Proof. split; intros []; reflexivity. Qed.

(** ** The factory: how the parts of [createChannel] run *)

Section FactoryFacts.

Variable channel_id : Instance -> Snowflake.
Variable channel_parent : Instance -> Store -> option ThreadParent.

(** After [cache.set(channel.id, channel)] the cache holds the channel
    under its identifier. *)
Lemma store_set_same (c : CacheRef) (channel : Instance) (σ : Store) :
  cache_contents (store_set channel_id c channel σ) c !! channel_id channel
  = Some channel.
Proof.
  unfold store_set, cache_contents at 1.
  rewrite lookup_insert_eq. simpl. apply lookup_insert_eq.
Qed.

(** Setting the same channel again, in any cache, keeps an entry that
    already holds it. *)
Lemma store_set_keeps (c c' : CacheRef) (channel : Instance) (σ : Store) :
  cache_contents σ c !! channel_id channel = Some channel ->
  cache_contents (store_set channel_id c' channel σ) c !! channel_id channel
  = Some channel.
Proof.
  intros H. unfold store_set, cache_contents at 1.
  destruct (decide (c' = c)) as [-> | Hne].
  - rewrite lookup_insert_eq. simpl. apply lookup_insert_eq.
  - rewrite lookup_insert_ne by assumption. exact H.
Qed.

(** [channel.parent?.threads.cache.set(...)] returns, having written to
    the parent's thread cache when there is a parent. *)
Lemma register_in_parent_run (channel : Instance) (σ : Store) :
  register_in_parent channel_id channel_parent channel σ
  = (Normal tt,
     match channel_parent channel σ with
     | Some parent => store_set channel_id (parent_threads parent) channel σ
     | None => σ
     end).
Proof.
  unfold register_in_parent, bind, get_store.
  destruct (channel_parent channel σ); reflexivity.
Qed.

(** [guild.channels?.cache.set(...)] on a resolved guild returns, having
    written to the guild's channel cache when the guild has one. *)
Lemma register_in_guild_run (g : Guild) (channel : Instance) (σ : Store) :
  register_in_guild channel_id (Some g) channel σ
  = (Normal tt,
     match guild_channels g with
     | Some cache => store_set channel_id cache channel σ
     | None => σ
     end).
Proof.
  unfold register_in_guild, bind, deref_guild, ret.
  destruct (guild_channels g); reflexivity.
Qed.

(** A recognized discriminator selects the constructor of its variant;
    only a thread is then offered to its parent's thread cache. *)
Lemma switch_type_recognized (client : Client) (data : APIChannel.t)
    (guild : option Guild) (allowUnknownGuild : JSValue)
    (k : GuildScoped.t) :
  APIChannel.type data = GuildScoped.discriminator k ->
  switch_type channel_id channel_parent client data guild allowUnknownGuild
  = let channel := mkInstance (GuildScoped.variant k) guild data client in
    if GuildScoped.is_thread k then
      (if negb (truthy allowUnknownGuild)
       then register_in_parent channel_id channel_parent channel
       else ret tt) ;;;
      ret (Some channel)
    else ret (Some channel).
Proof.
  intros Htype. unfold switch_type. rewrite Htype.
  destruct k; reflexivity.
Qed.

(** No case of the [switch] matches an unrecognized discriminator. *)
Lemma switch_type_unrecognized (client : Client) (data : APIChannel.t)
    (guild : option Guild) (allowUnknownGuild : JSValue) :
  unrecognized data ->
  switch_type channel_id channel_parent client data guild allowUnknownGuild = ret None.
Proof.
  intros Hun. unfold switch_type, strict_eq.
  pose proof (Hun GuildScoped.GuildText).
  pose proof (Hun GuildScoped.GuildVoice).
  pose proof (Hun GuildScoped.GuildCategory).
  pose proof (Hun GuildScoped.GuildAnnouncement).
  pose proof (Hun GuildScoped.GuildStageVoice).
  pose proof (Hun GuildScoped.AnnouncementThread).
  pose proof (Hun GuildScoped.PublicThread).
  pose proof (Hun GuildScoped.PrivateThread).
  pose proof (Hun GuildScoped.GuildDirectory).
  pose proof (Hun GuildScoped.GuildForum).
  pose proof (Hun GuildScoped.GuildMedia).
  simpl in *.
  rewrite !bool_decide_eq_false_2 by assumption. reflexivity.
Qed.


(** When the payload carries a guild identifier or a guild is supplied,
    [createChannel] takes its second branch. *)
Lemma createChannel_guild_branch (client : Client) (data : APIChannel.t)
    (guild : option Guild) (extras : option Options) :
  carries_guild_id data \/ guild <> None ->
  createChannel channel_id channel_parent client data guild extras
  = let allowUnknownGuild :=
      get_property (default ∅ extras) "allowUnknownGuild" in
    let guild :=
      match guild with
      | Some g => Some g
      | None => guilds_get client (APIChannel.guild_id data)
      end in
    if defined guild || truthy allowUnknownGuild then
      channel <- switch_type channel_id channel_parent client data guild allowUnknownGuild ;;
      match channel with
      | Some ch =>
          if negb (truthy allowUnknownGuild)
          then register_in_guild channel_id guild ch
          else ret tt
      | None => ret tt
      end ;;;
      ret channel
    else ret None.
Proof.
  intros H. unfold createChannel.
  replace (negb (truthy (APIChannel.guild_id data)) && negb (defined guild))
    with false; [reflexivity |].
  destruct H as [H | H].
  - unfold carries_guild_id in H. rewrite H. reflexivity.
  - destruct guild; [| congruence]. simpl. now rewrite andb_false_r.
Qed.

(** With a guild resolved, the second branch runs the [switch] on that
    guild. *)
Lemma createChannel_resolved (client : Client) (data : APIChannel.t)
    (guild : option Guild) (extras : option Options) (g : Guild) :
  resolves_to client data guild g ->
  createChannel channel_id channel_parent client data guild extras
  = let allowUnknownGuild :=
      get_property (default ∅ extras) "allowUnknownGuild" in
    channel <- switch_type channel_id channel_parent client data (Some g) allowUnknownGuild ;;
    match channel with
    | Some ch =>
        if negb (truthy allowUnknownGuild)
        then register_in_guild channel_id (Some g) ch
        else ret tt
    | None => ret tt
    end ;;;
    ret channel.
Proof.
  intros Hres. rewrite createChannel_guild_branch.
  - destruct Hres as [-> | (-> & _ & ->)]; reflexivity.
  - destruct Hres as [-> | (_ & H & _)]; [right; discriminate | left; exact H].
Qed.


(** X3: What the code does with the property it destructures: an unresolved
    guild with a truthy [allowUnknownGuild] gives the variant, built with
    no guild, and no cache is written. *)
Lemma createChannel_unknown_guild_allowed (client : Client)
    (data : APIChannel.t) (guild : option Guild) (extras : Options)
    (σ : Store) (k : GuildScoped.t) :
  carries_guild_id data ->
  unresolvable client data guild ->
  APIChannel.type data = GuildScoped.discriminator k ->
  truthy (get_property extras "allowUnknownGuild") = true ->
  createChannel channel_id channel_parent client data guild (Some extras) σ
  = (Normal (Some (mkInstance (GuildScoped.variant k) None data client)), σ).
Proof.
  intros Hgid [-> Hget] Htype Hallow.
  rewrite createChannel_guild_branch by (left; exact Hgid).
  simpl. rewrite Hget, Hallow. simpl.
  rewrite (switch_type_recognized _ _ _ _ k Htype). simpl.
  rewrite Hallow. destruct (GuildScoped.is_thread k); reflexivity.
Qed.

(** X4: An unresolved guild with a falsy [allowUnknownGuild] gives no channel
    and no cache is written. *)
Lemma createChannel_unknown_guild_refused (client : Client)
    (data : APIChannel.t) (guild : option Guild) (extras : option Options)
    (σ : Store) :
  carries_guild_id data ->
  unresolvable client data guild ->
  truthy (get_property (default ∅ extras) "allowUnknownGuild") = false ->
  createChannel channel_id channel_parent client data guild extras σ = (Normal None, σ).
Proof.
  intros Hgid [-> Hget] Hallow.
  rewrite createChannel_guild_branch by (left; exact Hgid).
  simpl. rewrite Hget, Hallow. reflexivity.
Qed.

(** X5: A thread made with a resolved guild, a resolvable parent and a falsy
    [allowUnknownGuild] is in its parent's thread cache and in the guild's
    channel cache, under its identifier. *)
Lemma createChannel_thread_registered (client : Client)
    (data : APIChannel.t) (guild : option Guild) (extras : option Options)
    (σ : Store) (k : GuildScoped.t) (g : Guild) (parent : ThreadParent)
    (cache : CacheRef) :
  GuildScoped.is_thread k = true ->
  APIChannel.type data = GuildScoped.discriminator k ->
  resolves_to client data guild g ->
  channel_parent (mkInstance ThreadChannel (Some g) data client) σ
  = Some parent ->
  guild_channels g = Some cache ->
  truthy (get_property (default ∅ extras) "allowUnknownGuild") = false ->
  exists channel σ',
    createChannel channel_id channel_parent client data guild extras σ = (Normal (Some channel), σ')
    /\ inst_class channel = ThreadChannel
    /\ cache_contents σ' (parent_threads parent) !! channel_id channel
       = Some channel
    /\ cache_contents σ' cache !! channel_id channel = Some channel.
Proof.
  intros Hthread Htype Hres Hparent Hcache Hallow.
  rewrite (createChannel_resolved _ _ _ _ g Hres). simpl.
  rewrite (switch_type_recognized _ _ _ _ k Htype). simpl.
  rewrite Hthread, Hallow. simpl.
  replace (GuildScoped.variant k) with ThreadChannel
    by (destruct k; (discriminate || reflexivity)).
  unfold bind. rewrite register_in_parent_run, Hparent. simpl.
  rewrite register_in_guild_run, Hcache. simpl.
  eexists _, _. split; [reflexivity |]. split; [reflexivity |].
  split.
  - apply store_set_keeps, store_set_same.
  - apply store_set_same.
Qed.

End FactoryFacts.

(** ** The factory: properties of [createChannel] *)

(** C1: for a payload whose discriminator is one of the eleven guild-scoped
    values and whose guild is resolvable (supplied, or found in the client's
    guild cache under the payload's guild identifier), [createChannel]
    returns a channel, of exactly the variant mapped to the discriminator
    and constructed on that guild and payload; when the channel classes take
    [id] from the payload, its identifier is the payload's. *)
Theorem createChannel_recognized
    (channel_id : Instance -> Snowflake)
    (channel_parent : Instance -> Store -> option ThreadParent)
    (client : Client) (data : APIChannel.t) (guild : option Guild)
    (extras : option Options) (σ : Store) (k : GuildScoped.t) (g : Guild) :
  APIChannel.type data = GuildScoped.discriminator k ->
  resolves_to client data guild g ->
  (forall channel, channel_id channel = APIChannel.id (inst_data channel)) ->
  exists channel σ',
    createChannel channel_id channel_parent client data guild extras σ
    = (Normal (Some channel), σ')
    /\ channel = mkInstance (GuildScoped.variant k) (Some g) data client
    /\ inst_class channel = GuildScoped.variant k
    /\ channel_id channel = APIChannel.id data.
Proof.
  intros Htype Hres Hid.
  rewrite (createChannel_resolved _ _ _ _ _ _ g Hres). simpl.
  rewrite (switch_type_recognized _ _ _ _ _ _ k Htype). simpl.
  destruct (GuildScoped.is_thread k);
    destruct (truthy (get_property (default ∅ extras) "allowUnknownGuild"));
    simpl; unfold bind, ret;
    rewrite ?register_in_parent_run, ?register_in_guild_run;
    eexists _, _; (split; [reflexivity |]);
    repeat split; apply Hid.
Qed.

(** C1 at a public-thread payload whose guild is found in the client's
    guild cache. *)
Lemma createChannel_recognized_witness :
  exists channel σ',
    createChannel Sample.channel_id Sample.with_parent Sample.client
      Sample.thread_payload None None ∅
    = (Normal (Some channel), σ')
    /\ channel
       = mkInstance ThreadChannel (Some Sample.guild) Sample.thread_payload
           Sample.client
    /\ inst_class channel = ThreadChannel
    /\ Sample.channel_id channel = "11".
Proof.
  apply (createChannel_recognized Sample.channel_id Sample.with_parent
           Sample.client Sample.thread_payload None None ∅
           GuildScoped.PublicThread Sample.guild).
  - reflexivity.
  - right. repeat split.
  - intros channel. reflexivity.
Defined.

(** C2: for a payload that carries no guild identifier, with no guild
    supplied: if it has [recipients] and its discriminator is not [GroupDM],
    or its discriminator is [DM], [createChannel] returns a [DMChannel];
    otherwise, if its discriminator is [GroupDM], it returns a
    [PartialGroupDMChannel]. No cache is written. *)
Theorem createChannel_user_scoped
    (channel_id : Instance -> Snowflake)
    (channel_parent : Instance -> Store -> option ThreadParent)
    (client : Client) (data : APIChannel.t) (extras : option Options)
    (σ : Store) :
  ~ carries_guild_id data ->
  ((APIChannel.recipients data <> None
    /\ APIChannel.type data <> ChannelType.GroupDM)
   \/ APIChannel.type data = ChannelType.DM ->
   createChannel channel_id channel_parent client data None extras σ
   = (Normal (Some (mkInstance DMChannel None data client)), σ))
  /\ (APIChannel.type data = ChannelType.GroupDM ->
      createChannel channel_id channel_parent client data None extras σ
      = (Normal (Some (mkInstance PartialGroupDMChannel None data client)), σ)).
Proof.
  intros Hgid. unfold carries_guild_id in Hgid.
  apply not_true_is_false in Hgid.
  unfold createChannel. rewrite Hgid. simpl. split.
  - intros [[Hrec Htype] | Htype].
    + destruct (APIChannel.recipients data); [| congruence]. simpl.
      unfold strict_eq at 1. rewrite bool_decide_eq_false_2 by assumption.
      reflexivity.
    + rewrite Htype. simpl. now rewrite orb_true_r.
  - intros Htype. rewrite Htype. simpl. now rewrite andb_false_r.
Qed.

(** C2 at a payload with [recipients] set and an unrelated discriminator,
    and at a group-DM payload. *)
Lemma createChannel_user_scoped_witness :
  createChannel Sample.channel_id Sample.no_parent Sample.client
    Sample.odd_dm_payload None None ∅
  = (Normal (Some (mkInstance DMChannel None Sample.odd_dm_payload
                     Sample.client)), ∅)
  /\ createChannel Sample.channel_id Sample.no_parent Sample.client
       Sample.group_dm_payload None None ∅
     = (Normal (Some (mkInstance PartialGroupDMChannel None
                        Sample.group_dm_payload Sample.client)), ∅).
Proof.
  split.
  - apply (proj1 (createChannel_user_scoped Sample.channel_id
                    Sample.no_parent Sample.client Sample.odd_dm_payload
                    None ∅ ltac:(discriminate))).
    left. split; discriminate.
  - apply (proj2 (createChannel_user_scoped Sample.channel_id
                    Sample.no_parent Sample.client Sample.group_dm_payload
                    None ∅ ltac:(discriminate))).
    reflexivity.
Defined.

(** C4, evaluated on a concrete call: a guild-text payload whose guild the client
    does not know, created with [{ allowFromUnknownGuild: true }], gives no
    channel: the property is not the one [createChannel] destructures. *)
Theorem createChannel_allowFromUnknownGuild_ignored :
  carries_guild_id Sample.text_payload
  /\ unresolvable Sample.client_no_guilds Sample.text_payload None
  /\ APIChannel.type Sample.text_payload
     = GuildScoped.discriminator GuildScoped.GuildText
  /\ get_property Sample.documented_option "allowFromUnknownGuild"
     = JSBool true
  /\ createChannel Sample.channel_id Sample.no_parent Sample.client_no_guilds
       Sample.text_payload None (Some Sample.documented_option) ∅
     = (Normal None, ∅).
Proof. repeat split. Qed.

(** C5, evaluated on a concrete call: the same payload created with
    [{ allowUnknownGuild: true }], where [allowFromUnknownGuild] is unset,
    gives a [TextChannel] built with no guild instead of no channel. *)
Theorem createChannel_allowFromUnknownGuild_unset_constructs :
  carries_guild_id Sample.text_payload
  /\ unresolvable Sample.client_no_guilds Sample.text_payload None
  /\ APIChannel.type Sample.text_payload
     = GuildScoped.discriminator GuildScoped.GuildText
  /\ get_property Sample.destructured_option "allowFromUnknownGuild"
     = JSUndefined
  /\ createChannel Sample.channel_id Sample.no_parent Sample.client_no_guilds
       Sample.text_payload None (Some Sample.destructured_option) ∅
     = (Normal (Some (mkInstance TextChannel None Sample.text_payload
                        Sample.client_no_guilds)), ∅).
Proof. repeat split. Qed.

(** C6, evaluated on a concrete call: a public-thread payload with its guild
    supplied and a resolvable parent, created with
    [{ allowFromUnknownGuild: false, allowUnknownGuild: true }], gives the
    thread but leaves it out of the parent's thread cache and out of the
    guild's channel cache. *)
Theorem createChannel_allowFromUnknownGuild_false_unregistered :
  let channel :=
    mkInstance ThreadChannel (Some Sample.guild) Sample.thread_payload
      Sample.client in
  APIChannel.type Sample.thread_payload
  = GuildScoped.discriminator GuildScoped.PublicThread
  /\ resolves_to Sample.client Sample.thread_payload (Some Sample.guild)
       Sample.guild
  /\ Sample.with_parent channel ∅ = Some Sample.parent
  /\ guild_channels Sample.guild = Some 7%positive
  /\ get_property Sample.both_options "allowFromUnknownGuild" = JSBool false
  /\ exists σ' : Store,
       createChannel Sample.channel_id Sample.with_parent Sample.client
         Sample.thread_payload (Some Sample.guild) (Some Sample.both_options) ∅
       = (Normal (Some channel), σ')
       /\ cache_contents σ' (parent_threads Sample.parent)
            !! Sample.channel_id channel = None
       /\ cache_contents σ' 7%positive !! Sample.channel_id channel = None.
Proof.
  repeat split; [left; reflexivity |].
  exists ∅. repeat split.
Qed.

(** C8: for a payload that takes the guild-scoped branch (it carries a guild
    identifier or a guild is supplied) and whose discriminator is none of
    the eleven recognized values, [createChannel] returns normally with no
    channel and writes no cache, whatever the options and whether or not a
    guild was resolved. *)
Theorem createChannel_unrecognized
    (channel_id : Instance -> Snowflake)
    (channel_parent : Instance -> Store -> option ThreadParent)
    (client : Client) (data : APIChannel.t) (guild : option Guild)
    (extras : option Options) (σ : Store) :
  carries_guild_id data \/ guild <> None ->
  unrecognized data ->
  createChannel channel_id channel_parent client data guild extras σ
  = (Normal None, σ).
Proof.
  intros Hbranch Hun.
  rewrite createChannel_guild_branch by assumption. simpl.
  rewrite (switch_type_unrecognized _ _ _ _ _ _ Hun).
  destruct (_ || _); reflexivity.
Qed.

(** C8 at a payload of type 99 whose guild is known to the client. *)
Lemma createChannel_unrecognized_witness :
  createChannel Sample.channel_id Sample.with_parent Sample.client
    Sample.future_payload None (Some Sample.documented_option) ∅
  = (Normal None, ∅).
Proof.
  apply (createChannel_unrecognized Sample.channel_id Sample.with_parent
           Sample.client Sample.future_payload None
           (Some Sample.documented_option) ∅).
  - left. reflexivity.
  - intros k. destruct k; discriminate.
Defined.

(** C10: [createChannel] reads only the property [allowUnknownGuild] of the
    options bag: two calls whose bags agree on it return the same result
    and leave the same store, whatever their other properties; an omitted
    bag is the empty one. *)
Theorem createChannel_reads_only_allowUnknownGuild
    (channel_id : Instance -> Snowflake)
    (channel_parent : Instance -> Store -> option ThreadParent)
    (client : Client) (data : APIChannel.t) (guild : option Guild)
    (o1 o2 : Options) (σ : Store) :
  agree_on "allowUnknownGuild" o1 o2 ->
  createChannel channel_id channel_parent client data guild (Some o1) σ
  = createChannel channel_id channel_parent client data guild (Some o2) σ
  /\ createChannel channel_id channel_parent client data guild None σ
     = createChannel channel_id channel_parent client data guild (Some ∅) σ.
Proof.
  intros Hagree. unfold agree_on in Hagree.
  split; [| reflexivity].
  unfold createChannel. simpl. rewrite Hagree. reflexivity.
Qed.

(** C10 at the empty bag and [{ allowFromUnknownGuild: true }]. *)
Lemma createChannel_reads_only_allowUnknownGuild_witness :
  createChannel Sample.channel_id Sample.no_parent Sample.client_no_guilds
    Sample.text_payload None (Some ∅) ∅
  = createChannel Sample.channel_id Sample.no_parent Sample.client_no_guilds
      Sample.text_payload None (Some Sample.documented_option) ∅.
Proof.
  apply (createChannel_reads_only_allowUnknownGuild Sample.channel_id
           Sample.no_parent Sample.client_no_guilds Sample.text_payload None
           ∅ Sample.documented_option ∅).
  reflexivity.
Defined.

(** ** The transcoder: further properties *)

(** Case analysis on a JavaScript value, down to whether it is truthy. *)
Ltac case_value v :=
  let z := fresh "z" in
  let s := fresh "s" in
  destruct v as [| | [] | z | s];
  [ | | | | destruct (Z.eqb z 0) eqn:? | destruct (String.eqb s "") eqn:? ].

(** X15: A wire-shaped tag survives the round trip through the application shape
    exactly when neither emoji key is [undefined] and [emoji_id ??
    emoji_name] is truthy, or both emoji fields are [null]. *)
Theorem wire_round_trip_fixed_point (t : API.GuildForumTag) :
  wire_round_trip t = t
  <-> (API.emoji_id t <> JSUndefined
       /\ API.emoji_name t <> JSUndefined
       /\ truthy (API.emoji_id t ?? API.emoji_name t) = true)
      \/ (API.emoji_id t = JSNull /\ API.emoji_name t = JSNull).
Proof.
  destruct t as [i n m eid ename].
  unfold wire_round_trip, transformAPIGuildForumTag, transformGuildForumTag.
  case_value eid; case_value ename; cbn;
    repeat match goal with H : _ = _ |- _ => rewrite H end; cbn;
    (split;
     [ intros Heq; first
         [ discriminate Heq
         | left; repeat split; discriminate
         | right; split; reflexivity ]
     | intros [(H1 & H2 & H3) | (H1 & H2)];
       first [ reflexivity | congruence ] ]).
Qed.

(** X16: The round trip through the application shape normalizes a wire tag:
    doing it twice is the same as doing it once. *)
Theorem wire_round_trip_idempotent (t : API.GuildForumTag) :
  wire_round_trip (wire_round_trip t) = wire_round_trip t.
Proof.
  destruct t as [i n m eid ename].
  unfold wire_round_trip, transformAPIGuildForumTag, transformGuildForumTag.
  case_value eid; case_value ename; cbn;
    repeat match goal with H : _ = _ |- _ => rewrite H end; cbn;
    repeat match goal with H : _ = _ |- _ => rewrite H end;
    reflexivity.
Qed.


(** X18: An application-shaped tag survives the round trip through the wire
    shape exactly when its [emoji] is [null], or is an object with neither
    field [undefined] and with [id ?? name] truthy. *)
Theorem app_round_trip_fixed_point (x : App.GuildForumTag) :
  app_round_trip x = x
  <-> App.emoji x = App.EmojiNull
      \/ exists e, App.emoji x = App.EmojiObject e
                   /\ App.id e <> JSUndefined
                   /\ App.name e <> JSUndefined
                   /\ truthy (App.id e ?? App.name e) = true.
Proof.
  destruct x as [i n m e].
  unfold app_round_trip, transformAPIGuildForumTag, transformGuildForumTag.
  destruct e as [| | [eid ename]]; cbn.
  - split; [discriminate | intros [? | (e & ? & _)]; discriminate].
  - split; [intros _; left; reflexivity | reflexivity].
  - case_value eid; case_value ename; cbn;
      repeat match goal with H : _ = _ |- _ => rewrite H end; cbn;
      (split;
       [ intros Heq; first
           [ discriminate Heq
           | right; eexists; split; [reflexivity |];
             cbn; split; [discriminate | split; [discriminate |]];
             repeat match goal with H : _ = _ |- _ => rewrite H end;
             reflexivity ]
       | intros [Hn | (e & He & H1 & H2 & H3)];
         [ discriminate Hn
         | injection He as <-; cbn in *;
           first
             [ reflexivity
             | congruence
             | repeat match goal with
                      | H : ?a = _, H' : context [?a] |- _ => rewrite H in H'
                      end;
               cbn in *; congruence ] ] ]).
Qed.

(** ** The factory: outcomes of [createChannel] *)

Section FactoryOutcomes.

Variable channel_id : Instance -> Snowflake.
Variable channel_parent : Instance -> Store -> option ThreadParent.

(** A discriminator is recognized as [k] exactly when it is the value of
    [k]: the eleven labels are distinct. *)
Lemma recognize_Some (type : JSValue) (k : GuildScoped.t) :
  recognize type = Some k <-> type = GuildScoped.discriminator k.
Proof.
  split.
  - unfold recognize, strict_eq.
    repeat case_bool_decide; intros [= <-]; assumption.
  - intros ->. destruct k; reflexivity.
Qed.

Lemma recognize_None (type : JSValue) :
  recognize type = None <-> forall k, type <> GuildScoped.discriminator k.
Proof.
  split.
  - intros Hnone k Hk. apply recognize_Some in Hk. congruence.
  - intros Hun. destruct (recognize type) as [k |] eqn:Hk; [| reflexivity].
    apply recognize_Some in Hk. destruct (Hun k Hk).
Qed.

(** The [switch], run: the channel of the recognized label, with a thread
    offered to its parent's thread cache unless [allowUnknownGuild]. *)
Lemma switch_type_run (client : Client) (data : APIChannel.t)
    (guild : option Guild) (allowUnknownGuild : JSValue) (σ : Store) :
  switch_type channel_id channel_parent client data guild allowUnknownGuild σ
  = match recognize (APIChannel.type data) with
    | Some k =>
        let channel := mkInstance (GuildScoped.variant k) guild data client in
        (Normal (Some channel),
         if GuildScoped.is_thread k && negb (truthy allowUnknownGuild)
         then store_after_parent channel_id channel_parent channel σ
         else σ)
    | None => (Normal None, σ)
    end.
Proof.
  destruct (recognize (APIChannel.type data)) as [k |] eqn:Hk.
  - apply recognize_Some in Hk.
    rewrite (switch_type_recognized _ _ _ _ _ _ k Hk). cbv zeta.
    destruct (GuildScoped.is_thread k); [| reflexivity].
    unfold bind. destruct (truthy allowUnknownGuild); [reflexivity |].
    change (negb false) with true. cbv iota.
    rewrite register_in_parent_run. reflexivity.
  - rewrite recognize_None in Hk.
    rewrite (switch_type_unrecognized _ _ _ _ _ _ Hk). reflexivity.
Qed.

(** The second branch of [createChannel], run. *)
Lemma createChannel_guild_run (client : Client) (data : APIChannel.t)
    (guild : option Guild) (extras : option Options) (σ : Store) :
  user_scoped data guild = false ->
  createChannel channel_id channel_parent client data guild extras σ
  = let allow := get_property (default ∅ extras) "allowUnknownGuild" in
    let g' := resolved_guild client data guild in
    if defined g' || truthy allow then
      match recognize (APIChannel.type data) with
      | Some k =>
          let channel := mkInstance (GuildScoped.variant k) g' data client in
          (Normal (Some channel),
           if truthy allow then σ
           else
             match g' with
             | Some g =>
                 store_after_guild channel_id g channel
                   (if GuildScoped.is_thread k
                    then store_after_parent channel_id channel_parent channel σ
                    else σ)
             | None => σ
             end)
      | None => (Normal None, σ)
      end
    else (Normal None, σ).
Proof.
  intros Hbranch. unfold createChannel, user_scoped in *.
  rewrite Hbranch. fold (resolved_guild client data guild). cbn.
  set (allow := get_property (default ∅ extras) "allowUnknownGuild").
  set (g' := resolved_guild client data guild).
  destruct (defined g' || truthy allow) eqn:Hgate; [| reflexivity].
  unfold bind at 1. rewrite switch_type_run.
  destruct (recognize (APIChannel.type data)) as [k |]; [| reflexivity].
  cbv zeta. destruct (truthy allow) eqn:Hallow.
  - rewrite andb_false_r. reflexivity.
  - rewrite andb_true_r. destruct g' as [g |]; [| discriminate].
    change (negb false) with true. cbv iota.
    unfold bind. rewrite register_in_guild_run. reflexivity.
Qed.

(** The first branch of [createChannel], run: no cache is touched. *)
Lemma createChannel_user_run (client : Client) (data : APIChannel.t)
    (guild : option Guild) (extras : option Options) (σ : Store) :
  user_scoped data guild = true ->
  createChannel channel_id channel_parent client data guild extras σ
  = (Normal
       (if (defined (APIChannel.recipients data)
            && negb (APIChannel.type data === ChannelType.GroupDM))
           || (APIChannel.type data === ChannelType.DM)
        then Some (mkInstance DMChannel None data client)
        else if APIChannel.type data === ChannelType.GroupDM
             then Some (mkInstance PartialGroupDMChannel None data client)
             else None),
     σ).
Proof.
  intros Hbranch. unfold createChannel, user_scoped in *. rewrite Hbranch.
  repeat match goal with
         | |- context [if ?b then _ else _] => destruct b
         end; reflexivity.
Qed.

(** The effect of [cache.set] on every entry of every cache. *)
Lemma store_set_lookup (c c' : CacheRef) (channel : Instance) (key : string)
    (σ : Store) :
  cache_contents (store_set channel_id c' channel σ) c !! key
  = if decide (c' = c /\ channel_id channel = key)
    then Some channel
    else cache_contents σ c !! key.
Proof.
  unfold store_set, cache_contents at 1.
  destruct (decide (c' = c)) as [-> | Hc].
  - rewrite lookup_insert_eq. cbn.
    destruct (decide (channel_id channel = key)) as [-> | Hk].
    + rewrite lookup_insert_eq. rewrite decide_True by auto. reflexivity.
    + rewrite lookup_insert_ne by assumption.
      rewrite decide_False by (intros [? ?]; congruence). reflexivity.
  - rewrite lookup_insert_ne by assumption.
    rewrite decide_False by (intros [? ?]; congruence). reflexivity.
Qed.

End FactoryOutcomes.

(** ** The factory: further properties of [createChannel] *)

Section FactoryMore.

Variable channel_id : Instance -> Snowflake.
Variable channel_parent : Instance -> Store -> option ThreadParent.

(** A resolvable guild sends [createChannel] to its second branch, which
    works with that guild. *)
Lemma resolves_to_branch (client : Client) (data : APIChannel.t)
    (guild : option Guild) (g : Guild) :
  resolves_to client data guild g ->
  user_scoped data guild = false
  /\ resolved_guild client data guild = Some g.
Proof.
  unfold user_scoped, resolved_guild, carries_guild_id.
  intros [-> | (-> & Hgid & Hget)]; cbn.
  - split; [apply andb_false_r | reflexivity].
  - rewrite Hgid. split; [reflexivity | exact Hget].
Qed.

Lemma guild_branch_not_user_scoped (data : APIChannel.t)
    (guild : option Guild) :
  carries_guild_id data \/ guild <> None -> user_scoped data guild = false.
Proof.
  unfold user_scoped, carries_guild_id. intros [-> | Hg]; [reflexivity |].
  destruct guild; [apply andb_false_r | congruence].
Qed.


(** X2: with a truthy [allowUnknownGuild], [createChannel] writes to no
    cache, whatever the payload, the guild and the client. *)
Theorem createChannel_allowUnknownGuild_writes_nothing (client : Client)
    (data : APIChannel.t) (guild : option Guild) (extras : option Options)
    (σ : Store) :
  truthy (get_property (default ∅ extras) "allowUnknownGuild") = true ->
  snd (createChannel channel_id channel_parent client data guild extras σ)
  = σ.
Proof.
  intros Hallow. destruct (user_scoped data guild) eqn:Hbranch.
  - rewrite createChannel_user_run by assumption. reflexivity.
  - rewrite createChannel_guild_run by assumption. cbv zeta.
    rewrite Hallow.
    destruct (_ || _); [| reflexivity].
    destruct (recognize _); reflexivity.
Qed.

(** X6: a channel of any of the eleven guild-scoped kinds, made with a
    resolved guild that has a channel cache and a falsy
    [allowUnknownGuild], is in that cache under its identifier afterwards,
    whatever the cache held under that identifier before. *)
Theorem createChannel_registered_in_guild (client : Client)
    (data : APIChannel.t) (guild : option Guild) (extras : option Options)
    (σ : Store) (k : GuildScoped.t) (g : Guild) (cache : CacheRef) :
  let channel := mkInstance (GuildScoped.variant k) (Some g) data client in
  APIChannel.type data = GuildScoped.discriminator k ->
  resolves_to client data guild g ->
  guild_channels g = Some cache ->
  truthy (get_property (default ∅ extras) "allowUnknownGuild") = false ->
  exists σ',
    createChannel channel_id channel_parent client data guild extras σ
    = (Normal (Some channel), σ')
    /\ cache_contents σ' cache !! channel_id channel = Some channel.
Proof.
  intros channel Htype Hres Hcache Hallow.
  destruct (resolves_to_branch _ _ _ _ Hres) as [Hbranch Hg].
  rewrite createChannel_guild_run by assumption. cbv zeta.
  rewrite Hg, Hallow. apply recognize_Some in Htype. rewrite Htype. cbn.
  eexists. split; [reflexivity |].
  unfold store_after_guild. rewrite Hcache. apply store_set_same.
Qed.

(** X7: the only cache entries that [createChannel] changes hold the
    returned channel under its own identifier, in the channel cache of the
    resolved guild or, for a thread, in the thread cache of its parent; and
    this happens only with a falsy [allowUnknownGuild]. *)
Theorem createChannel_changes_only_new_entry (client : Client)
    (data : APIChannel.t) (guild : option Guild) (extras : option Options)
    (σ : Store) (c : CacheRef) (key : string) :
  let r := createChannel channel_id channel_parent client data guild extras σ in
  cache_contents (snd r) c !! key <> cache_contents σ c !! key ->
  exists channel,
    fst r = Normal (Some channel)
    /\ channel_id channel = key
    /\ cache_contents (snd r) c !! key = Some channel
    /\ truthy (get_property (default ∅ extras) "allowUnknownGuild") = false
    /\ ((exists g, resolved_guild client data guild = Some g
                   /\ guild_channels g = Some c)
        \/ (inst_class channel = ThreadChannel
            /\ exists parent, channel_parent channel σ = Some parent
                              /\ parent_threads parent = c)).
Proof.
  cbv zeta. destruct (user_scoped data guild) eqn:Hbranch.
  { rewrite createChannel_user_run by assumption. cbn. congruence. }
  rewrite createChannel_guild_run by assumption. cbv zeta.
  destruct (_ || _); [| cbn; congruence].
  destruct (recognize _) as [k |]; [| cbn; congruence].
  destruct (truthy _); [cbn; congruence |].
  destruct (resolved_guild client data guild) as [g |]; [| cbn; congruence].
  set (channel := mkInstance (GuildScoped.variant k) (Some g) data client).
  cbn [fst snd]. unfold store_after_guild, store_after_parent.
  intros Hdiff. exists channel.
  assert (Hthread : GuildScoped.is_thread k = true ->
                    inst_class channel = ThreadChannel)
    by (destruct k; (discriminate || reflexivity)).
  destruct (guild_channels g) as [gc |] eqn:Hgc;
    destruct (GuildScoped.is_thread k);
    try destruct (channel_parent channel σ) as [parent |] eqn:Hparent;
    rewrite ?store_set_lookup in *;
    repeat case_decide;
    try congruence;
    repeat match goal with H : _ /\ _ |- _ => destruct H end;
    subst;
    (split; [reflexivity |]); (split; [reflexivity |]);
    (split; [reflexivity |]); (split; [reflexivity |]);
    first
      [ left; exists g; split; [reflexivity | assumption]
      | right; split; [apply Hthread; reflexivity |];
        exists parent; split; reflexivity ].
Qed.

(** X8: a guild object without a [channels] manager still gets its channel;
    for the kinds that are not threads no cache is written. *)
Theorem createChannel_guild_without_channel_cache (client : Client)
    (data : APIChannel.t) (guild : option Guild) (extras : option Options)
    (σ : Store) (k : GuildScoped.t) (g : Guild) :
  APIChannel.type data = GuildScoped.discriminator k ->
  GuildScoped.is_thread k = false ->
  resolves_to client data guild g ->
  guild_channels g = None ->
  createChannel channel_id channel_parent client data guild extras σ
  = (Normal (Some (mkInstance (GuildScoped.variant k) (Some g) data client)),
     σ).
Proof.
  intros Htype Hthread Hres Hnone.
  destruct (resolves_to_branch _ _ _ _ Hres) as [Hbranch Hg].
  rewrite createChannel_guild_run by assumption. cbv zeta.
  rewrite Hg. apply recognize_Some in Htype. rewrite Htype. cbn.
  unfold store_after_guild. rewrite Hnone, Hthread.
  destruct (truthy _); reflexivity.
Qed.

(** X9: a thread whose parent channel cannot be resolved is still returned
    and put in the guild's channel cache; that one [set] is the whole
    effect on the caches. *)
Theorem createChannel_thread_without_parent (client : Client)
    (data : APIChannel.t) (guild : option Guild) (extras : option Options)
    (σ : Store) (k : GuildScoped.t) (g : Guild) (cache : CacheRef) :
  let channel := mkInstance ThreadChannel (Some g) data client in
  APIChannel.type data = GuildScoped.discriminator k ->
  GuildScoped.is_thread k = true ->
  resolves_to client data guild g ->
  channel_parent channel σ = None ->
  guild_channels g = Some cache ->
  truthy (get_property (default ∅ extras) "allowUnknownGuild") = false ->
  createChannel channel_id channel_parent client data guild extras σ
  = (Normal (Some channel),
     <[cache := <[channel_id channel := channel]> (cache_contents σ cache)]> σ).
Proof.
  intros channel Htype Hthread Hres Hparent Hcache Hallow.
  destruct (resolves_to_branch _ _ _ _ Hres) as [Hbranch Hg].
  rewrite createChannel_guild_run by assumption. cbv zeta.
  rewrite Hg, Hallow. apply recognize_Some in Htype. rewrite Htype. cbn.
  rewrite Hthread.
  replace (GuildScoped.variant k) with ThreadChannel
    by (destruct k; (discriminate || reflexivity)).
  fold channel. unfold store_after_guild, store_after_parent.
  rewrite Hcache, Hparent. reflexivity.
Qed.

(** X10: a payload with no guild identifier, no [recipients] and a
    discriminator that is neither [DM] nor [GroupDM] gives no channel when
    no guild is supplied, whatever the options: [allowUnknownGuild] does not
    apply to it. *)
Theorem createChannel_user_scoped_absent (client : Client)
    (data : APIChannel.t) (extras : option Options) (σ : Store) :
  ~ carries_guild_id data ->
  APIChannel.recipients data = None ->
  APIChannel.type data <> ChannelType.DM ->
  APIChannel.type data <> ChannelType.GroupDM ->
  createChannel channel_id channel_parent client data None extras σ
  = (Normal None, σ).
Proof.
  intros Hgid Hrec Hdm Hgroup.
  rewrite createChannel_user_run.
  - rewrite Hrec. unfold strict_eq.
    rewrite !bool_decide_eq_false_2 by assumption. reflexivity.
  - unfold user_scoped, carries_guild_id in *.
    apply not_true_is_false in Hgid. rewrite Hgid. reflexivity.
Qed.

(** X11: a channel returned by [createChannel] is always built from the
    payload and the client given; in the first branch it is a [DMChannel]
    or a [PartialGroupDMChannel] with no guild, in the second it belongs to
    the resolved guild and is the variant of a recognized discriminator. *)
Theorem createChannel_returned_channel (client : Client)
    (data : APIChannel.t) (guild : option Guild) (extras : option Options)
    (σ σ' : Store) (channel : Instance) :
  createChannel channel_id channel_parent client data guild extras σ
  = (Normal (Some channel), σ') ->
  inst_data channel = data
  /\ inst_client channel = client
  /\ ((user_scoped data guild = true
       /\ inst_guild channel = None
       /\ (inst_class channel = DMChannel
           \/ inst_class channel = PartialGroupDMChannel))
      \/ (user_scoped data guild = false
          /\ inst_guild channel = resolved_guild client data guild
          /\ exists k, APIChannel.type data = GuildScoped.discriminator k
                       /\ inst_class channel = GuildScoped.variant k)).
Proof.
  destruct (user_scoped data guild) eqn:Hbranch.
  - rewrite createChannel_user_run by assumption.
    repeat match goal with
           | |- context [if ?b then _ else _] => destruct b
           end; intros [= <- _]; cbn; auto 10.
  - rewrite createChannel_guild_run by assumption. cbv zeta.
    destruct (_ || _); [| discriminate].
    destruct (recognize _) as [k |] eqn:Hk; [| discriminate].
    apply recognize_Some in Hk. intros [= <- _]. cbn.
    split; [reflexivity |]. split; [reflexivity |].
    right. split; [reflexivity |]. split; [reflexivity |].
    exists k. split; [assumption | reflexivity].
Qed.

(** X12: in its second branch [createChannel] returns a channel exactly when
    the discriminator is one of the eleven and a guild is resolved or
    [allowUnknownGuild] is truthy. *)
Theorem createChannel_guild_returns_iff (client : Client)
    (data : APIChannel.t) (guild : option Guild) (extras : option Options)
    (σ : Store) :
  carries_guild_id data \/ guild <> None ->
  ((exists channel σ',
       createChannel channel_id channel_parent client data guild extras σ
       = (Normal (Some channel), σ'))
   <-> (resolved_guild client data guild <> None
        \/ truthy (get_property (default ∅ extras) "allowUnknownGuild") = true)
       /\ exists k, APIChannel.type data = GuildScoped.discriminator k).
Proof.
  intros Hbranch. apply guild_branch_not_user_scoped in Hbranch.
  rewrite createChannel_guild_run by assumption. cbv zeta.
  destruct (recognize (APIChannel.type data)) as [k |] eqn:Hk.
  - pose proof (proj1 (recognize_Some _ _) Hk) as Htype.
    destruct (resolved_guild client data guild) as [g |]; cbn.
    + split; [intros _ | intros _; eexists _, _; reflexivity].
      split; [left; discriminate | exists k; assumption].
    + destruct (truthy _); cbn.
      * split; [intros _ | intros _; eexists _, _; reflexivity].
        split; [right; reflexivity | exists k; assumption].
      * split; [intros (? & ? & [=]) | intros [[? | ?] _]; congruence].
  - pose proof (proj1 (recognize_None _) Hk) as Hun.
    split.
    + destruct (_ || _); intros (? & ? & [=]).
    + intros [_ [k Htype]]. destruct (Hun k Htype).
Qed.

(** X13: for a resolvable guild the channel returned depends neither on the
    options nor on the contents of the caches: [allowUnknownGuild] only
    decides whether the channel is registered. *)
Theorem createChannel_options_keep_channel (client : Client)
    (data : APIChannel.t) (guild : option Guild) (g : Guild)
    (extras1 extras2 : option Options) (σ1 σ2 : Store) :
  resolves_to client data guild g ->
  fst (createChannel channel_id channel_parent client data guild extras1 σ1)
  = fst (createChannel channel_id channel_parent client data guild extras2 σ2).
Proof.
  intros Hres. destruct (resolves_to_branch _ _ _ _ Hres) as [Hbranch Hg].
  rewrite !createChannel_guild_run by assumption. cbv zeta.
  rewrite Hg. cbn. destruct (recognize _); reflexivity.
Qed.


End FactoryMore.

(** ** The further properties on sample calls *)

(** An unknown guild with [{ allowUnknownGuild: true }]. *)
Lemma createChannel_unknown_guild_allowed_witness :
  createChannel Sample.channel_id Sample.no_parent Sample.client_no_guilds
    Sample.text_payload None (Some Sample.destructured_option) Sample2.store
  = (Normal (Some (mkInstance TextChannel None Sample.text_payload
                     Sample.client_no_guilds)), Sample2.store).
Proof.
  apply (createChannel_unknown_guild_allowed Sample.channel_id
           Sample.no_parent Sample.client_no_guilds Sample.text_payload None
           Sample.destructured_option Sample2.store GuildScoped.GuildText).
  - reflexivity.
  - split; reflexivity.
  - reflexivity.
  - reflexivity.
Defined.

(** An unknown guild with no options. *)
Lemma createChannel_unknown_guild_refused_witness :
  createChannel Sample.channel_id Sample.with_parent Sample.client_no_guilds
    Sample.thread_payload None None Sample2.store
  = (Normal None, Sample2.store).
Proof.
  apply (createChannel_unknown_guild_refused Sample.channel_id
           Sample.with_parent Sample.client_no_guilds Sample.thread_payload
           None None Sample2.store).
  - reflexivity.
  - split; reflexivity.
  - reflexivity.
Defined.

(** A public thread of a guild known to the client, with a parent. *)
Lemma createChannel_thread_registered_witness :
  exists channel σ',
    createChannel Sample.channel_id Sample.with_parent Sample.client
      Sample.thread_payload None None Sample2.store
    = (Normal (Some channel), σ')
    /\ inst_class channel = ThreadChannel
    /\ cache_contents σ' 9%positive !! Sample.channel_id channel
       = Some channel
    /\ cache_contents σ' 7%positive !! Sample.channel_id channel
       = Some channel.
Proof.
  apply (createChannel_thread_registered Sample.channel_id
           Sample.with_parent Sample.client Sample.thread_payload None None
           Sample2.store GuildScoped.PublicThread Sample.guild Sample.parent
           7%positive).
  - reflexivity.
  - reflexivity.
  - right. repeat split.
  - reflexivity.
  - reflexivity.
  - reflexivity.
Defined.

(** A thread with parent and guild, created with
    [{ allowUnknownGuild: true }]: the store is left as it was. *)
Lemma createChannel_allowUnknownGuild_writes_nothing_witness :
  snd (createChannel Sample.channel_id Sample.with_parent Sample.client
         Sample.thread_payload (Some Sample.guild)
         (Some Sample.destructured_option) Sample2.store)
  = Sample2.store.
Proof.
  apply (createChannel_allowUnknownGuild_writes_nothing Sample.channel_id
           Sample.with_parent Sample.client Sample.thread_payload
           (Some Sample.guild) (Some Sample.destructured_option)
           Sample2.store).
  reflexivity.
Defined.

(** A text channel for the identifier ['10'], which the guild's cache
    already holds: the new channel takes the slot. *)
Lemma createChannel_registered_in_guild_witness :
  cache_contents Sample2.store 7%positive !! "10" = Some Sample2.old_channel
  /\ exists σ',
       createChannel Sample.channel_id Sample.no_parent Sample.client
         Sample.text_payload None None Sample2.store
       = (Normal (Some (mkInstance TextChannel (Some Sample.guild)
                          Sample.text_payload Sample.client)), σ')
       /\ cache_contents σ' 7%positive !! "10"
          = Some (mkInstance TextChannel (Some Sample.guild)
                    Sample.text_payload Sample.client).
Proof.
  split; [reflexivity |].
  apply (createChannel_registered_in_guild Sample.channel_id
           Sample.no_parent Sample.client Sample.text_payload None None
           Sample2.store GuildScoped.GuildText Sample.guild 7%positive).
  - reflexivity.
  - right. repeat split.
  - reflexivity.
  - reflexivity.
Defined.

(** The entry ['10'] of the guild's cache changes in that call, and it is
    the returned channel that it holds afterwards. *)
Lemma createChannel_changes_only_new_entry_witness :
  exists channel,
    fst (createChannel Sample.channel_id Sample.no_parent Sample.client
           Sample.text_payload None None Sample2.store)
    = Normal (Some channel)
    /\ Sample.channel_id channel = "10"
    /\ cache_contents
         (snd (createChannel Sample.channel_id Sample.no_parent Sample.client
                 Sample.text_payload None None Sample2.store))
         7%positive !! "10" = Some channel
    /\ truthy (get_property ∅ "allowUnknownGuild") = false
    /\ ((exists g, resolved_guild Sample.client Sample.text_payload None
                   = Some g
                   /\ guild_channels g = Some 7%positive)
        \/ (inst_class channel = ThreadChannel
            /\ exists parent,
                 Sample.no_parent channel Sample2.store = Some parent
                 /\ parent_threads parent = 7%positive)).
Proof.
  apply (createChannel_changes_only_new_entry Sample.channel_id
           Sample.no_parent Sample.client Sample.text_payload None None
           Sample2.store 7%positive "10").
  vm_compute. discriminate.
Defined.

(** A guild object without a [channels] manager, supplied as argument. *)
Lemma createChannel_guild_without_channel_cache_witness :
  createChannel Sample.channel_id Sample.no_parent Sample.client
    Sample.text_payload (Some Sample2.bare_guild) None Sample2.store
  = (Normal (Some (mkInstance TextChannel (Some Sample2.bare_guild)
                     Sample.text_payload Sample.client)), Sample2.store).
Proof.
  apply (createChannel_guild_without_channel_cache Sample.channel_id
           Sample.no_parent Sample.client Sample.text_payload
           (Some Sample2.bare_guild) None Sample2.store
           GuildScoped.GuildText Sample2.bare_guild).
  - reflexivity.
  - reflexivity.
  - left. reflexivity.
  - reflexivity.
Defined.

(** A public thread whose parent getter finds no channel. *)
Lemma createChannel_thread_without_parent_witness :
  let channel :=
    mkInstance ThreadChannel (Some Sample.guild) Sample.thread_payload
      Sample.client in
  createChannel Sample.channel_id Sample.no_parent Sample.client
    Sample.thread_payload None None ∅
  = (Normal (Some channel), {[ 7%positive := {[ "11" := channel ]} ]}).
Proof.
  cbv zeta.
  rewrite (createChannel_thread_without_parent Sample.channel_id
             Sample.no_parent Sample.client Sample.thread_payload None None ∅
             GuildScoped.PublicThread Sample.guild 7%positive).
  - reflexivity.
  - reflexivity.
  - reflexivity.
  - right. repeat split.
  - reflexivity.
  - reflexivity.
  - reflexivity.
Defined.

(** A guild-text payload with no guild identifier and no guild, created
    with [{ allowUnknownGuild: true }]. *)
Lemma createChannel_user_scoped_absent_witness :
  createChannel Sample.channel_id Sample.no_parent Sample.client
    Sample2.text_without_guild_id None (Some Sample.destructured_option)
    Sample2.store
  = (Normal None, Sample2.store).
Proof.
  apply (createChannel_user_scoped_absent Sample.channel_id Sample.no_parent
           Sample.client Sample2.text_without_guild_id
           (Some Sample.destructured_option) Sample2.store).
  - discriminate.
  - reflexivity.
  - discriminate.
  - discriminate.
Defined.

(** The channel returned for the public-thread payload. *)
Lemma createChannel_returned_channel_witness :
  let channel :=
    mkInstance ThreadChannel (Some Sample.guild) Sample.thread_payload
      Sample.client in
  inst_data channel = Sample.thread_payload
  /\ inst_client channel = Sample.client
  /\ ((user_scoped Sample.thread_payload None = true
       /\ inst_guild channel = None
       /\ (inst_class channel = DMChannel
           \/ inst_class channel = PartialGroupDMChannel))
      \/ (user_scoped Sample.thread_payload None = false
          /\ inst_guild channel
             = resolved_guild Sample.client Sample.thread_payload None
          /\ exists k,
               APIChannel.type Sample.thread_payload
               = GuildScoped.discriminator k
               /\ inst_class channel = GuildScoped.variant k)).
Proof.
  apply (createChannel_returned_channel Sample.channel_id Sample.no_parent
           Sample.client Sample.thread_payload None None ∅
           {[ 7%positive := {[ "11" := mkInstance ThreadChannel
                                          (Some Sample.guild)
                                          Sample.thread_payload
                                          Sample.client ]} ]}).
  reflexivity.
Defined.

(** With no options, a guild-text payload of a guild the client does not
    know: the criterion for returning a channel. *)
Lemma createChannel_guild_returns_iff_witness :
  (exists channel σ',
      createChannel Sample.channel_id Sample.no_parent
        Sample.client_no_guilds Sample.text_payload None None ∅
      = (Normal (Some channel), σ'))
  <-> (resolved_guild Sample.client_no_guilds Sample.text_payload None
       <> None
       \/ truthy (get_property ∅ "allowUnknownGuild") = true)
      /\ exists k, APIChannel.type Sample.text_payload
                   = GuildScoped.discriminator k.
Proof.
  apply (createChannel_guild_returns_iff Sample.channel_id Sample.no_parent
           Sample.client_no_guilds Sample.text_payload None None ∅).
  left. reflexivity.
Defined.

(** The same channel with and without [{ allowUnknownGuild: true }], and
    from different stores. *)
Lemma createChannel_options_keep_channel_witness :
  fst (createChannel Sample.channel_id Sample.with_parent Sample.client
         Sample.thread_payload None None ∅)
  = fst (createChannel Sample.channel_id Sample.with_parent Sample.client
           Sample.thread_payload None (Some Sample.destructured_option)
           Sample2.store).
Proof.
  apply (createChannel_options_keep_channel Sample.channel_id
           Sample.with_parent Sample.client Sample.thread_payload None
           Sample.guild None (Some Sample.destructured_option) ∅
           Sample2.store).
  right. repeat split.
Defined.

